(** * fowler.dev infrastructure stack: model and verified properties

    The repository declares one AWS CDK stack, [FowlerDevStack], in two
    observed variants:

    - [src/infra/lib/fowler-dev-stack.ts]: the bucket is read through an
      origin access identity (identity-based access binding);
    - [src/unnamed/part_000]: the bucket is read through an origin access
      control attached by raw property overrides (control-based access
      binding), with a viewer-request CloudFront Function that rewrites
      pretty URLs.

    The constructor is modelled as the program it is: a sequence of
    construct creations and method calls that builds up a stack, each of
    which can be refused (a second construct under one identifier, a call
    on a construct that does not exist yet).  Attributes that only the
    provider assigns (a distribution's id, a bucket's ARN) are references
    inside templates, resolved by an assignment of attribute values.

    Strings are JavaScript strings, modelled as [string] (a sequence of
    code units; request paths reaching a CloudFront Function are ASCII). *)

From Stdlib Require Import String Ascii List ZArith Bool Lia.
Import ListNotations.

Local Open Scope string_scope.

(** ** JavaScript string primitives used by the sources *)

Module Js.

(** [s.length] *)
Definition length (s : string) : Z := Z.of_nat (String.length s).

(** [s.charAt(i)]: the one-unit string at index [i], the empty string
    when [i] is out of range. *)
Definition charAt (s : string) (i : Z) : string :=
  if (i <? 0)%Z then ""
  else match String.get (Z.to_nat i) s with
       | Some c => String c ""
       | None => ""
       end.

Fixpoint indexOfFrom (s : string) (c : ascii) (i : Z) : Z :=
  match s with
  | "" => (-1)%Z
  | String a s' => if Ascii.eqb a c then i else indexOfFrom s' c (i + 1)
  end.

(** [s.indexOf(c)] for a one-unit search string [c]: the first index
    holding [c], or [-1]. *)
Definition indexOf (s : string) (c : ascii) : Z := indexOfFrom s c 0.

(** Truthiness of a string in a condition: every string but the empty
    one. *)
Definition truthy (s : string) : bool := negb (s =? "").

(** [s.replace(/c/g, r)]: every occurrence of the unit [c] replaced by
    the unit [r]. *)
Fixpoint replaceAll (s : string) (c r : ascii) : string :=
  match s with
  | "" => ""
  | String a s' => String (if Ascii.eqb a c then r else a) (replaceAll s' c r)
  end.

End Js.

(** ** The viewer-request function [UrlRewriteFn] (part_000, lines 68-83) *)

Module UrlRewriteFn.

(** The request object: the handler reads and writes [uri] only; the
    remaining properties (method, query string, headers, ...) are kept
    as an opaque list. *)
Record Request := mkRequest {
  uri : string;
  properties : list (string * string)
}.

Record Event := mkEvent { request : Request }.

(** [request.uri = v] *)
Definition setUri (r : Request) (v : string) : Request :=
  {| uri := v; properties := properties r |}.

(** [function handler(event)] *)
Definition handler (event : Event) : Request :=
  let request := request event in
  let uri := uri request in
  if Js.truthy uri && (Js.length uri >? 1)%Z then
    if Js.charAt uri (Js.length uri - 1) =? "/" then
      setUri request (uri ++ "index.html")
    else if (Js.indexOf uri "." =? -1)%Z then
      setUri request (uri ++ "/index.html")
    else request
  else request.

(** The path the function forwards for a request path. *)
Definition rewritten (path : string) : string :=
  uri (handler (mkEvent (mkRequest path []))).

(** *** The rewrite as the specification words it *)

(** The characters after the last [/] of a path. *)
Fixpoint finalSegmentFrom (acc s : string) : string :=
  match s with
  | "" => acc
  | String c s' =>
      if Ascii.eqb c "/" then finalSegmentFrom "" s'
      else finalSegmentFrom (acc ++ String c "") s'
  end.

Definition finalSegment (s : string) : string := finalSegmentFrom "" s.

Fixpoint contains (s : string) (c : ascii) : bool :=
  match s with
  | "" => false
  | String a s' => Ascii.eqb a c || contains s' c
  end.

Fixpoint endsWith (s : string) (c : ascii) : bool :=
  match s with
  | "" => false
  | String a "" => Ascii.eqb a c
  | String _ s' => endsWith s' c
  end.

(** "If the path ends in [/], append [index.html]; else if the final
    segment contains no [.], append [/index.html]; otherwise leave
    unchanged." *)
Definition specRewrite (path : string) : string :=
  if endsWith path "/" then path ++ "index.html"
  else if negb (contains (finalSegment path) ".") then path ++ "/index.html"
  else path.

End UrlRewriteFn.

(** ** The construct library, as far as the stack uses it

    The stack constructor is a sequence of [new X(this, id, props)] calls
    and of method calls on the constructs made so far.  Constructs are
    kept in creation order under their identifier in the stack scope; a
    construct is referred to by that identifier. *)

Definition Ref := string.

(** A string that may embed attributes of resources which are only known
    at deployment (CDK tokens): literal pieces and attribute references. *)
Inductive Piece :=
| Lit (s : string)
| Attr (construct : Ref) (attribute : string).

Definition Template := list Piece.

Definition lit (s : string) : Template := [Lit s].

(** Concatenation inside a template literal. *)
Notation "a +++ b" := (@app Piece a b) (at level 60, right associativity).

(** The string a template stands for once the provider has assigned the
    attributes. *)
Definition Resolution := Ref -> string -> string.

Definition resolvePiece (rho : Resolution) (p : Piece) : string :=
  match p with
  | Lit s => s
  | Attr c a => rho c a
  end.

Fixpoint resolve (rho : Resolution) (t : Template) : string :=
  match t with
  | [] => ""
  | p :: t' => resolvePiece rho p ++ resolve rho t'
  end.

Module cdk.

Inductive RemovalPolicy := DESTROY | RETAIN | SNAPSHOT.

(** [cdk.Duration.minutes(n)] *)
Inductive Duration := minutes (n : nat) | seconds (n : nat).

Definition toSeconds (d : Duration) : nat :=
  match d with
  | minutes n => 60 * n
  | seconds n => n
  end.

(** [props.env].  The stack looks its hosted zone up, which needs a
    concrete environment, so account and region are plain strings. *)
Record Environment := { account : string; region : string }.

Record StackProps := { env : Environment }.

Record CfnOutputProps := { value : Template; description : string }.

End cdk.

Module s3.

Inductive BlockPublicAccess := BLOCK_ALL | BLOCK_ACLS.

Inductive BucketAccessControl :=
| PRIVATE | PUBLIC_READ | PUBLIC_READ_WRITE | AUTHENTICATED_READ.

(** The bucket properties; [accessControl] (the canned ACL) is set by
    neither variant. *)
Record BucketProps := {
  bucketName : string;
  websiteIndexDocument : option string;
  websiteErrorDocument : option string;
  publicReadAccess : bool;
  blockPublicAccess : BlockPublicAccess;
  accessControl : option BucketAccessControl;
  removalPolicy : cdk.RemovalPolicy;
  autoDeleteObjects : bool
}.

(** [bucket.bucketArn], [bucket.bucketName], [bucket.arnForObjects(p)] *)
Definition bucketArn (bucket : Ref) : Template := [Attr bucket "bucketArn"].
Definition bucketNameOf (bucket : Ref) : Template := [Attr bucket "bucketName"].
Definition arnForObjects (bucket : Ref) (keyPattern : string) : Template :=
  bucketArn bucket +++ lit ("/" ++ keyPattern).

End s3.

Module iam.

Inductive Effect := ALLOW | DENY.

(** Principals: a service principal, the anonymous principal, or the
    grant principal of a construct of the stack. *)
Inductive Principal :=
| ServicePrincipal (service : string)
| AnyPrincipal
| GrantPrincipal (grantee : Ref).

(** [conditions: { operator: { key: value } }] *)
Definition Conditions := list (string * list (string * Template)).

Record PolicyStatement := {
  effect : Effect;
  actions : list string;
  resources : list Template;
  principals : list Principal;
  conditions : Conditions
}.

Record PolicyProps := { statements : list PolicyStatement }.

Record UserProps := { userName : string }.

(** [user.userName] *)
Definition userNameOf (user : Ref) : Template := [Attr user "userName"].


End iam.

Module route53.

(** [HostedZone.fromLookup(this, id, { domainName })]: the zone of that
    name, with the identifier the lookup context holds for it. *)
Record HostedZoneProviderProps := { domainName : string }.

Record HostedZoneAttributes := { zoneName : string; hostedZoneId : string }.

Inductive AliasTarget := CloudFrontTarget (distribution : Ref).

Inductive RecordTarget := fromAlias (t : AliasTarget).

Record ARecordProps := {
  zone : Ref;
  recordName : option string;
  target : RecordTarget
}.

End route53.

Module certificatemanager.

Record DnsValidatedCertificateProps := {
  domainName : string;
  hostedZone : Ref;
  region : string;
  subjectAlternativeNames : list string
}.

End certificatemanager.

Module cloudfront.

Record OriginAccessControlConfig := {
  name : string;
  originAccessControlOriginType : string;
  signingBehavior : string;
  signingProtocol : string;
  description : string
}.

Record CfnOriginAccessControlProps := {
  originAccessControlConfig : OriginAccessControlConfig
}.

Record OriginAccessIdentityProps := { comment : string }.

(** [FunctionCode.fromInline(source)]: the inline source is the handler
    of [UrlRewriteFn]. *)
Inductive FunctionCode :=
| fromInline (handler : UrlRewriteFn.Event -> UrlRewriteFn.Request).

Record FunctionProps := { code : FunctionCode }.

Inductive FunctionEventType := VIEWER_REQUEST | VIEWER_RESPONSE.

Record FunctionAssociation := {
  function : Ref;
  eventType : FunctionEventType
}.

(** The arguments of [new origins.S3Origin(bucket, { originAccessIdentity })].
    What the construct library makes of them (an identity of its own, a
    website origin for a bucket with website documents) happens outside
    the sources and is not modelled. *)
Record S3Origin := {
  bucket : Ref;
  originAccessIdentity : option Ref
}.

Inductive ViewerProtocolPolicy := HTTPS_ONLY | REDIRECT_TO_HTTPS | ALLOW_ALL.

Inductive CachePolicy := CACHING_OPTIMIZED | CACHING_DISABLED.

Record BehaviorOptions := {
  origin : S3Origin;
  viewerProtocolPolicy : ViewerProtocolPolicy;
  cachePolicy : CachePolicy;
  functionAssociations : list FunctionAssociation
}.

Record ErrorResponse := {
  httpStatus : nat;
  responseHttpStatus : nat;
  responsePagePath : string;
  ttl : cdk.Duration
}.

Record DistributionProps := {
  defaultBehavior : BehaviorOptions;
  domainNames : list string;
  certificate : Ref;
  defaultRootObject : string;
  errorResponses : list ErrorResponse
}.

(** [distribution.distributionId], [distribution.distributionDomainName],
    [oac.attrId] *)
Definition distributionId (d : Ref) : Template := [Attr d "distributionId"].
Definition distributionDomainName (d : Ref) : Template :=
  [Attr d "distributionDomainName"].
Definition attrId (oac : Ref) : Template := [Attr oac "attrId"].

(** A raw override of the synthesized resource definition. *)
Inductive RawOverride :=
| PropertyOverride (path : string) (value : Template)
| PropertyDeletionOverride (path : string).

End cloudfront.

Inductive Construct :=
| Bucket (props : s3.BucketProps)
| CfnOriginAccessControl (props : cloudfront.CfnOriginAccessControlProps)
| OriginAccessIdentity (props : cloudfront.OriginAccessIdentityProps)
| HostedZone (attrs : route53.HostedZoneAttributes)
| DnsValidatedCertificate (props : certificatemanager.DnsValidatedCertificateProps)
| CloudFrontFunction (props : cloudfront.FunctionProps)
| Distribution (props : cloudfront.DistributionProps)
| ARecord (props : route53.ARecordProps)
| User (props : iam.UserProps)
| Policy (props : iam.PolicyProps)
| CfnOutput (props : cdk.CfnOutputProps).

(** What the constructor's own calls put on a bucket's resource policy: a
    statement handed to [addToResourcePolicy], or a read grant made by
    [grantRead].  Statements that the construct library adds by itself
    (for an origin's own identity, for [autoDeleteObjects]) are made
    outside the sources and are not among these entries. *)
Inductive BucketPolicyEntry :=
| Statement (s : iam.PolicyStatement)
| ReadGrant (grantee : Ref).

(** One effect of the constructor on the stack: a construct declared, an
    entry put on a bucket's policy, a raw override put on a resource
    definition, an inline policy attached to a user. *)
Inductive Step :=
| Declared (id : Ref)
| PolicyEntryAdded (bucket : Ref) (e : BucketPolicyEntry)
| Overridden (cfn : Ref) (o : cloudfront.RawOverride)
| PolicyAttached (user policy : Ref).

(** The stack under construction.  [journal] keeps the effects in the
    order in which the constructor's statements made them. *)
Record Stack := {
  children : list (Ref * Construct);
  resourcePolicies : list (Ref * BucketPolicyEntry);
  rawOverrides : list (Ref * cloudfront.RawOverride);
  inlinePolicies : list (Ref * Ref);
  journal : list Step
}.

Definition emptyStack : Stack :=
  {| children := []; resourcePolicies := [];
     rawOverrides := []; inlinePolicies := []; journal := [] |}.

(** What the lookup context holds: the identifier of the hosted zone of a
    domain name. *)
Record Context := { hostedZoneIdOf : string -> string }.

Fixpoint findChild (id : Ref) (cs : list (Ref * Construct)) : option Construct :=
  match cs with
  | [] => None
  | (i, c) :: cs' => if i =? id then Some c else findChild id cs'
  end.

(** *** Synthesis: state and failure *)

Inductive SynthError :=
| DuplicateConstruct (id : Ref)
| NoSuchConstruct (id : Ref).

Inductive Result (A : Type) :=
| Ok (a : A) (s : Stack)
| Throw (e : SynthError).

Arguments Ok {A} a s.
Arguments Throw {A} e.

Definition Synth (A : Type) := Stack -> Result A.

Definition ret {A} (a : A) : Synth A := fun s => Ok a s.

Definition bind {A B} (m : Synth A) (k : A -> Synth B) : Synth B :=
  fun s => match m s with
           | Ok a s' => k a s'
           | Throw e => Throw e
           end.

Declare Scope synth_scope.
Delimit Scope synth_scope with synth.

Notation "x <- m ;; k" := (bind m (fun x => k))
  (at level 100, m at next level, right associativity) : synth_scope.
Notation "m ;; k" := (bind m (fun _ => k))
  (at level 100, right associativity) : synth_scope.

(** [new X(this, id, props)]: a second construct under one identifier is
    refused. *)
Definition new (id : Ref) (c : Construct) : Synth Ref :=
  fun s => match findChild id (children s) with
           | Some _ => Throw (DuplicateConstruct id)
           | None =>
               Ok id {| children := children s ++ [(id, c)];
                        resourcePolicies := resourcePolicies s;
                        rawOverrides := rawOverrides s;
                        inlinePolicies := inlinePolicies s;
                        journal := journal s ++ [Declared id] |}
           end.

(** A method call on a construct needs the construct to exist. *)
Definition existing (id : Ref) : Synth Ref :=
  fun s => match findChild id (children s) with
           | Some _ => Ok id s
           | None => Throw (NoSuchConstruct id)
           end.

(** [bucket.addToResourcePolicy(statement)] and [bucket.grantRead(identity)] *)
Definition addPolicyEntry (bucket : Ref) (e : BucketPolicyEntry) : Synth unit :=
  fun s => Ok tt {| children := children s;
                    resourcePolicies := resourcePolicies s ++ [(bucket, e)];
                    rawOverrides := rawOverrides s;
                    inlinePolicies := inlinePolicies s;
                    journal := journal s ++ [PolicyEntryAdded bucket e] |}.

Definition addToResourcePolicy (bucket : Ref) (st : iam.PolicyStatement)
  : Synth unit :=
  (b <- existing bucket ;; addPolicyEntry b (Statement st))%synth.

Definition grantRead (bucket identity : Ref) : Synth unit :=
  (b <- existing bucket ;;
   i <- existing identity ;;
   addPolicyEntry b (ReadGrant i))%synth.

(** [distribution.node.defaultChild as cloudfront.CfnDistribution]: the
    resource definition under a distribution.  A construct is named here
    by its identifier, so the lookup is written out; in the constructors
    it is always made on a distribution just declared. *)
Definition defaultChild (distribution : Ref) : Synth Ref :=
  fun s => match findChild distribution (children s) with
           | Some (Distribution _) => Ok distribution s
           | _ => Throw (NoSuchConstruct distribution)
           end.

Definition addRawOverride (cfn : Ref) (o : cloudfront.RawOverride) : Synth unit :=
  fun s => Ok tt {| children := children s;
                    resourcePolicies := resourcePolicies s;
                    rawOverrides := rawOverrides s ++ [(cfn, o)];
                    inlinePolicies := inlinePolicies s;
                    journal := journal s ++ [Overridden cfn o] |}.

(** [cfn.addPropertyOverride(path, value)] and
    [cfn.addPropertyDeletionOverride(path)] *)
Definition addPropertyOverride (cfn : Ref) (path : string) (v : Template)
  : Synth unit :=
  (c <- defaultChild cfn ;;
   addRawOverride c (cloudfront.PropertyOverride path v))%synth.

Definition addPropertyDeletionOverride (cfn : Ref) (path : string) : Synth unit :=
  (c <- defaultChild cfn ;;
   addRawOverride c (cloudfront.PropertyDeletionOverride path))%synth.

(** [user.attachInlinePolicy(policy)] *)
Definition attachInlinePolicy (user policy : Ref) : Synth unit :=
  (u <- existing user ;;
   p <- existing policy ;;
   fun s => Ok tt {| children := children s;
                     resourcePolicies := resourcePolicies s;
                     rawOverrides := rawOverrides s;
                     inlinePolicies := inlinePolicies s ++ [(u, p)];
                     journal := journal s ++ [PolicyAttached u p] |})%synth.

(** [route53.HostedZone.fromLookup(this, id, props)] *)
Definition fromLookup (ctx : Context) (id : Ref)
    (props : route53.HostedZoneProviderProps) : Synth Ref :=
  new id (HostedZone
    {| route53.zoneName := route53.domainName props;
       route53.hostedZoneId := hostedZoneIdOf ctx (route53.domainName props) |}).

(** *** Reading a synthesized stack *)

(** The stack a synthesis run leaves behind. *)
Definition stackOf (r : Result unit) : Stack :=
  match r with
  | Ok _ s => s
  | Throw _ => emptyStack
  end.

Definition keep {A B} (f : A -> option B) (l : list (Ref * A)) : list (Ref * B) :=
  flat_map (fun ic => match f (snd ic) with
                      | Some b => [(fst ic, b)]
                      | None => []
                      end) l.

Definition buckets (s : Stack) : list (Ref * s3.BucketProps) :=
  keep (fun c => match c with Bucket p => Some p | _ => None end) (children s).


Definition certificates (s : Stack)
  : list (Ref * certificatemanager.DnsValidatedCertificateProps) :=
  keep (fun c => match c with DnsValidatedCertificate p => Some p | _ => None end)
       (children s).

Definition distributions (s : Stack) : list (Ref * cloudfront.DistributionProps) :=
  keep (fun c => match c with Distribution p => Some p | _ => None end)
       (children s).

Definition aRecords (s : Stack) : list (Ref * route53.ARecordProps) :=
  keep (fun c => match c with ARecord p => Some p | _ => None end) (children s).

Definition users (s : Stack) : list (Ref * iam.UserProps) :=
  keep (fun c => match c with User p => Some p | _ => None end) (children s).

Definition policies (s : Stack) : list (Ref * iam.PolicyProps) :=
  keep (fun c => match c with Policy p => Some p | _ => None end) (children s).

Definition outputs (s : Stack) : list (Ref * cdk.CfnOutputProps) :=
  keep (fun c => match c with CfnOutput p => Some p | _ => None end) (children s).

(** The entries that the constructor's own calls put on a bucket's
    resource policy, in order. *)
Definition bucketPolicy (s : Stack) (bucket : Ref) : list BucketPolicyEntry :=
  map snd (filter (fun be => fst be =? bucket) (resourcePolicies s)).


(** The inline policies attached to a user. *)
Definition attachedPolicies (s : Stack) (user : Ref) : list Ref :=
  map snd (filter (fun up => fst up =? user) (inlinePolicies s)).

(** The principals an entry of a bucket policy allows, and the values it
    requires of the condition key [AWS:SourceArn]. *)
Definition entryPrincipals (e : BucketPolicyEntry) : list iam.Principal :=
  match e with
  | Statement st => iam.principals st
  | ReadGrant g => [iam.GrantPrincipal g]
  end.


(** The host name an alias record answers for: the zone's own name when
    the record has no name, else the record name inside the zone. *)
Definition recordHost (s : Stack) (r : route53.ARecordProps) : option string :=
  match findChild (route53.zone r) (children s) with
  | Some (HostedZone z) =>
      Some match route53.recordName r with
           | None => route53.zoneName z
           | Some n => n ++ "." ++ route53.zoneName z
           end
  | _ => None
  end.

(** The error response a distribution has for an origin status: the
    first rule for that status. *)
Definition errorResponseFor (d : cloudfront.DistributionProps) (status : nat)
  : option cloudfront.ErrorResponse :=
  find (fun e => Nat.eqb (cloudfront.httpStatus e) status)
       (cloudfront.errorResponses d).

(** The ARN format of a CloudFront distribution:
    [arn:aws:cloudfront::<account>:distribution/<id>]. *)
Definition cloudfrontDistributionArn (account id : string) : string :=
  "arn:aws:cloudfront::" ++ account ++ ":distribution/" ++ id.

(** ** The stack, control-based variant ([src/unnamed/part_000]) *)

Module ControlBased.

Local Open Scope synth_scope.

(** [const domainName = 'fowler.dev'] *)
Definition domainName : string := "fowler.dev".

(** [domainName.replace(/\./g, '-')] *)
Definition sanitizedDomain (domainName : string) : string :=
  Js.replaceAll domainName "." "-".

(** [`${sanitizedDomain}-${accountId}-hugo-site`] *)
Definition bucketName (domainName accountId : string) : string :=
  sanitizedDomain domainName ++ "-" ++ accountId ++ "-hugo-site".

(** The body of the constructor, for a domain name. *)
Definition construct (domainName : string) (props : cdk.StackProps)
    (ctx : Context) : Synth unit :=
  let account := cdk.account (cdk.env props) in
  let accountId := account in
  let bucketName := bucketName domainName accountId in
  siteBucket <- new "SiteBucket" (Bucket
    {| s3.bucketName := bucketName;
       s3.websiteIndexDocument := None;
       s3.websiteErrorDocument := None;
       s3.publicReadAccess := false;
       s3.blockPublicAccess := s3.BLOCK_ALL;
       s3.accessControl := None;
       s3.removalPolicy := cdk.DESTROY;
       s3.autoDeleteObjects := true |}) ;;
  oac <- new "OAC" (CfnOriginAccessControl
    {| cloudfront.originAccessControlConfig :=
         {| cloudfront.name := domainName ++ "-oac";
            cloudfront.originAccessControlOriginType := "s3";
            cloudfront.signingBehavior := "always";
            cloudfront.signingProtocol := "sigv4";
            cloudfront.description := "OAC for " ++ domainName |} |}) ;;
  hostedZone <- fromLookup ctx "HostedZone"
    {| route53.domainName := domainName |} ;;
  certificate <- new "SiteCertificate" (DnsValidatedCertificate
    {| certificatemanager.domainName := domainName;
       certificatemanager.hostedZone := hostedZone;
       certificatemanager.region := "us-east-1";
       certificatemanager.subjectAlternativeNames := ["www." ++ domainName] |}) ;;
  urlRewriteFn <- new "UrlRewriteFn" (CloudFrontFunction
    {| cloudfront.code := cloudfront.fromInline UrlRewriteFn.handler |}) ;;
  distribution <- new "Distribution" (Distribution
    {| cloudfront.defaultBehavior :=
         {| cloudfront.origin :=
              {| cloudfront.bucket := siteBucket;
                 cloudfront.originAccessIdentity := None |};
            cloudfront.viewerProtocolPolicy := cloudfront.REDIRECT_TO_HTTPS;
            cloudfront.cachePolicy := cloudfront.CACHING_OPTIMIZED;
            cloudfront.functionAssociations :=
              [ {| cloudfront.function := urlRewriteFn;
                   cloudfront.eventType := cloudfront.VIEWER_REQUEST |} ] |};
       cloudfront.domainNames := [domainName; "www." ++ domainName];
       cloudfront.certificate := certificate;
       cloudfront.defaultRootObject := "index.html";
       cloudfront.errorResponses :=
         [ {| cloudfront.httpStatus := 403;
              cloudfront.responseHttpStatus := 404;
              cloudfront.responsePagePath := "/404.html";
              cloudfront.ttl := cdk.minutes 30 |};
           {| cloudfront.httpStatus := 404;
              cloudfront.responseHttpStatus := 404;
              cloudfront.responsePagePath := "/404.html";
              cloudfront.ttl := cdk.minutes 30 |} ] |}) ;;
  cfnDistribution <- defaultChild distribution ;;
  addPropertyOverride cfnDistribution
    "DistributionConfig.Origins.0.OriginAccessControlId"
    (cloudfront.attrId oac) ;;
  addPropertyOverride cfnDistribution
    "DistributionConfig.Origins.0.S3OriginConfig.OriginAccessIdentity"
    (lit "") ;;
  addPropertyDeletionOverride cfnDistribution
    "DistributionConfig.Origins.0.CustomOriginConfig" ;;
  addToResourcePolicy siteBucket
    {| iam.effect := iam.ALLOW; (* no [effect] given: the default *)
       iam.actions := ["s3:GetObject"];
       iam.resources := [s3.arnForObjects siteBucket "*"];
       iam.principals := [iam.ServicePrincipal "cloudfront.amazonaws.com"];
       iam.conditions :=
         [ ("StringEquals",
            [ ("AWS:SourceArn",
               lit "arn:aws:cloudfront::" +++ lit account
               +++ lit ":distribution/"
               +++ cloudfront.distributionId distribution) ]) ] |} ;;
  new "AliasRecord" (ARecord
    {| route53.zone := hostedZone;
       route53.recordName := None;
       route53.target :=
         route53.fromAlias (route53.CloudFrontTarget distribution) |}) ;;
  new "WwwAliasRecord" (ARecord
    {| route53.zone := hostedZone;
       route53.recordName := Some "www";
       route53.target :=
         route53.fromAlias (route53.CloudFrontTarget distribution) |}) ;;
  deployUser <- new "GitHubActionsUser" (User
    {| iam.userName := domainName ++ "-github-actions" |}) ;;
  deployPolicy <- new "DeployPolicy" (Policy
    {| iam.statements :=
         [ {| iam.effect := iam.ALLOW;
              iam.actions :=
                [ "s3:PutObject"; "s3:PutObjectAcl"; "s3:GetObject";
                  "s3:DeleteObject"; "s3:ListBucket" ];
              iam.resources :=
                [ s3.bucketArn siteBucket;
                  s3.bucketArn siteBucket +++ lit "/*" ];
              iam.principals := [];
              iam.conditions := [] |};
           {| iam.effect := iam.ALLOW;
              iam.actions := ["cloudfront:CreateInvalidation"];
              iam.resources :=
                [ lit "arn:aws:cloudfront::" +++ lit account
                  +++ lit ":distribution/"
                  +++ cloudfront.distributionId distribution ];
              iam.principals := [];
              iam.conditions := [] |} ] |}) ;;
  attachInlinePolicy deployUser deployPolicy ;;
  new "BucketName" (CfnOutput
    {| cdk.value := s3.bucketNameOf siteBucket;
       cdk.description := "Name of the S3 bucket" |}) ;;
  new "DistributionId" (CfnOutput
    {| cdk.value := cloudfront.distributionId distribution;
       cdk.description := "CloudFront Distribution ID" |}) ;;
  new "DistributionDomainName" (CfnOutput
    {| cdk.value := cloudfront.distributionDomainName distribution;
       cdk.description := "CloudFront Distribution Domain Name" |}) ;;
  new "DeployUserName" (CfnOutput
    {| cdk.value := iam.userNameOf deployUser;
       cdk.description := "IAM User for GitHub Actions" |}) ;;
  ret tt.

(** [new FowlerDevStack(scope, id, props)] *)
Definition FowlerDevStack (id : string) (props : cdk.StackProps)
    (ctx : Context) : Result unit :=
  construct domainName props ctx emptyStack.

End ControlBased.

(** ** The stack, identity-based variant
    ([src/infra/lib/fowler-dev-stack.ts]) *)

Module IdentityBased.

Local Open Scope synth_scope.

(** [const domainName = 'fowler.dev'] *)
Definition domainName : string := "fowler.dev".

(** [`${domainName}-hugo-site`] *)
Definition bucketName (domainName : string) : string :=
  domainName ++ "-hugo-site".

(** The body of the constructor, for a domain name. *)
Definition construct (domainName : string) (props : cdk.StackProps)
    (ctx : Context) : Synth unit :=
  let account := cdk.account (cdk.env props) in
  let bucketName := bucketName domainName in
  siteBucket <- new "SiteBucket" (Bucket
    {| s3.bucketName := bucketName;
       s3.websiteIndexDocument := Some "index.html";
       s3.websiteErrorDocument := Some "404.html";
       s3.publicReadAccess := false;
       s3.blockPublicAccess := s3.BLOCK_ALL;
       s3.accessControl := None;
       s3.removalPolicy := cdk.DESTROY;
       s3.autoDeleteObjects := true |}) ;;
  originAccessIdentity <- new "OAI" (OriginAccessIdentity
    {| cloudfront.comment := "OAI for " ++ domainName |}) ;;
  grantRead siteBucket originAccessIdentity ;;
  hostedZone <- fromLookup ctx "HostedZone"
    {| route53.domainName := domainName |} ;;
  certificate <- new "SiteCertificate" (DnsValidatedCertificate
    {| certificatemanager.domainName := domainName;
       certificatemanager.hostedZone := hostedZone;
       certificatemanager.region := "us-east-1";
       certificatemanager.subjectAlternativeNames := ["www." ++ domainName] |}) ;;
  distribution <- new "Distribution" (Distribution
    {| cloudfront.defaultBehavior :=
         {| cloudfront.origin :=
              {| cloudfront.bucket := siteBucket;
                 cloudfront.originAccessIdentity := Some originAccessIdentity |};
            cloudfront.viewerProtocolPolicy := cloudfront.REDIRECT_TO_HTTPS;
            cloudfront.cachePolicy := cloudfront.CACHING_OPTIMIZED;
            cloudfront.functionAssociations := [] |};
       cloudfront.domainNames := [domainName; "www." ++ domainName];
       cloudfront.certificate := certificate;
       cloudfront.defaultRootObject := "index.html";
       cloudfront.errorResponses :=
         [ {| cloudfront.httpStatus := 404;
              cloudfront.responseHttpStatus := 404;
              cloudfront.responsePagePath := "/404.html";
              cloudfront.ttl := cdk.minutes 30 |} ] |}) ;;
  new "AliasRecord" (ARecord
    {| route53.zone := hostedZone;
       route53.recordName := None;
       route53.target :=
         route53.fromAlias (route53.CloudFrontTarget distribution) |}) ;;
  new "WwwAliasRecord" (ARecord
    {| route53.zone := hostedZone;
       route53.recordName := Some "www";
       route53.target :=
         route53.fromAlias (route53.CloudFrontTarget distribution) |}) ;;
  deployUser <- new "GitHubActionsUser" (User
    {| iam.userName := domainName ++ "-github-actions" |}) ;;
  deployPolicy <- new "DeployPolicy" (Policy
    {| iam.statements :=
         [ {| iam.effect := iam.ALLOW;
              iam.actions :=
                [ "s3:PutObject"; "s3:PutObjectAcl"; "s3:GetObject";
                  "s3:DeleteObject"; "s3:ListBucket" ];
              iam.resources :=
                [ s3.bucketArn siteBucket;
                  s3.bucketArn siteBucket +++ lit "/*" ];
              iam.principals := [];
              iam.conditions := [] |};
           {| iam.effect := iam.ALLOW;
              iam.actions := ["cloudfront:CreateInvalidation"];
              iam.resources :=
                [ lit "arn:aws:cloudfront::" +++ lit account
                  +++ lit ":distribution/"
                  +++ cloudfront.distributionId distribution ];
              iam.principals := [];
              iam.conditions := [] |} ] |}) ;;
  attachInlinePolicy deployUser deployPolicy ;;
  new "BucketName" (CfnOutput
    {| cdk.value := s3.bucketNameOf siteBucket;
       cdk.description := "Name of the S3 bucket" |}) ;;
  new "DistributionId" (CfnOutput
    {| cdk.value := cloudfront.distributionId distribution;
       cdk.description := "CloudFront Distribution ID" |}) ;;
  new "DistributionDomainName" (CfnOutput
    {| cdk.value := cloudfront.distributionDomainName distribution;
       cdk.description := "CloudFront Distribution Domain Name" |}) ;;
  new "DeployUserName" (CfnOutput
    {| cdk.value := iam.userNameOf deployUser;
       cdk.description := "IAM User for GitHub Actions" |}) ;;
  ret tt.

(** [new FowlerDevStack(scope, id, props)] *)
Definition FowlerDevStack (id : string) (props : cdk.StackProps)
    (ctx : Context) : Result unit :=
  construct domainName props ctx emptyStack.

End IdentityBased.

(** ** The properties claimed of a synthesized stack *)





(** The deployment identity: one user, one attached policy of two
    statements, the first on the bucket and its objects, the second on
    the distribution. *)
Definition objectActions : list string :=
  [ "s3:PutObject"; "s3:PutObjectAcl"; "s3:GetObject";
    "s3:DeleteObject"; "s3:ListBucket" ].

Definition deployIdentityScoped (account : string) (s : Stack) : Prop :=
  exists b bp d dp u up p st1 st2,
    buckets s = [(b, bp)] /\
    distributions s = [(d, dp)] /\
    users s = [(u, up)] /\
    attachedPolicies s u = [p] /\
    policies s = [(p, {| iam.statements := [st1; st2] |})] /\
    iam.effect st1 = iam.ALLOW /\
    iam.actions st1 = objectActions /\
    iam.principals st1 = [] /\ iam.conditions st1 = [] /\
    iam.effect st2 = iam.ALLOW /\
    iam.actions st2 = ["cloudfront:CreateInvalidation"] /\
    iam.principals st2 = [] /\ iam.conditions st2 = [] /\
    forall rho,
      map (resolve rho) (iam.resources st1) =
        [rho b "bucketArn"; rho b "bucketArn" ++ "/*"] /\
      map (resolve rho) (iam.resources st2) =
        [cloudfrontDistributionArn account (rho d "distributionId")].

(** The bucket of the stack is closed to the public: the public-access
    block is complete, public read is off, no canned ACL is set and no
    entry of its policy names the anonymous principal. *)
Definition publicAccessBlocked (s : Stack) : Prop :=
  exists b bp,
    buckets s = [(b, bp)] /\
    s3.blockPublicAccess bp = s3.BLOCK_ALL /\
    s3.publicReadAccess bp = false /\
    s3.accessControl bp = None /\
    forall e, In e (bucketPolicy s b) ->
              ~ In iam.AnyPrincipal (entryPrincipals e).

(** A distribution answers an origin status with the page [/404.html],
    outward status 404, kept for thirty minutes. *)
Definition servesNotFoundPage (dp : cloudfront.DistributionProps)
    (status : nat) : Prop :=
  exists e,
    errorResponseFor dp status = Some e /\
    cloudfront.responseHttpStatus e = 404 /\
    cloudfront.responsePagePath e = "/404.html" /\
    cdk.toSeconds (cloudfront.ttl e) = 30 * 60.

Definition mapsForbiddenAndMissing (s : Stack) : Prop :=
  exists d dp,
    distributions s = [(d, dp)] /\
    servesNotFoundPage dp 403 /\ servesNotFoundPage dp 404.

(** The alias records are the distribution's domain names, one record
    per name and in the same order, each an alias of the distribution. *)
Definition aliasRecordsMatch (domainName : string) (s : Stack) : Prop :=
  exists d dp,
    distributions s = [(d, dp)] /\
    cloudfront.domainNames dp = [domainName; "www." ++ domainName] /\
    map (fun r => recordHost s (snd r)) (aRecords s) =
      map Some (cloudfront.domainNames dp) /\
    forall r, In r (aRecords s) ->
      route53.target (snd r) = route53.fromAlias (route53.CloudFrontTarget d).

(** Characters of a DNS label, and of a host name. *)
Definition isLower (c : ascii) : bool :=
  (97 <=? nat_of_ascii c)%nat && (nat_of_ascii c <=? 122)%nat.

Definition isDigit (c : ascii) : bool :=
  (48 <=? nat_of_ascii c)%nat && (nat_of_ascii c <=? 57)%nat.

Definition isLabelChar (c : ascii) : bool :=
  isLower c || isDigit c || Ascii.eqb c "-".

Definition isHostChar (c : ascii) : bool :=
  isLabelChar c || Ascii.eqb c ".".

Fixpoint allChars (f : ascii -> bool) (s : string) : bool :=
  match s with
  | "" => true
  | String c s' => f c && allChars f s'
  end.

Definition firstChar (s : string) : option ascii := String.get 0 s.

Definition lastChar (s : string) : option ascii :=
  String.get (String.length s - 1) s.

(** A name that can stand as one DNS label: lowercase letters, digits and
    hyphens, at most 63 of them, no hyphen at either end. *)
Definition dnsLabelSafe (s : string) : bool :=
  allChars isLabelChar s
  && (1 <=? String.length s)%nat && (String.length s <=? 63)%nat
  && negb (match firstChar s with Some c => Ascii.eqb c "-" | None => true end)
  && negb (match lastChar s with Some c => Ascii.eqb c "-" | None => true end).

(** The certificate of the stack: the bare domain plus the alternative
    name [www.<domain>], validated by DNS in the looked-up zone of the
    domain, in region us-east-1. *)
Definition certificateCovers (domainName : string) (s : Stack) : Prop :=
  exists c cp z,
    certificates s = [(c, cp)] /\
    certificatemanager.domainName cp = domainName /\
    certificatemanager.subjectAlternativeNames cp = ["www." ++ domainName] /\
    certificatemanager.region cp = "us-east-1" /\
    findChild (certificatemanager.hostedZone cp) (children s)
      = Some (HostedZone z) /\
    route53.zoneName z = domainName.


(** Concrete environments used in examples. *)
Definition exampleProps (account region : string) : cdk.StackProps :=
  {| cdk.env := {| cdk.account := account; cdk.region := region |} |}.

Definition exampleContext (zoneId : string) : Context :=
  {| hostedZoneIdOf := fun _ => zoneId |}.

(** ** Further readings of a synthesized stack *)

Definition cloudFrontFunctions (s : Stack) : list (Ref * cloudfront.FunctionProps) :=
  keep (fun c => match c with CloudFrontFunction p => Some p | _ => None end)
       (children s).

Definition hostedZones (s : Stack) : list (Ref * route53.HostedZoneAttributes) :=
  keep (fun c => match c with HostedZone z => Some z | _ => None end)
       (children s).

(** *** References between constructs *)

Inductive Kind :=
| KBucket | KOriginAccessControl | KOriginAccessIdentity | KHostedZone
| KCertificate | KFunction | KDistribution | KARecord | KUser | KPolicy
| KOutput.

Definition kindOf (c : Construct) : Kind :=
  match c with
  | Bucket _ => KBucket
  | CfnOriginAccessControl _ => KOriginAccessControl
  | OriginAccessIdentity _ => KOriginAccessIdentity
  | HostedZone _ => KHostedZone
  | DnsValidatedCertificate _ => KCertificate
  | CloudFrontFunction _ => KFunction
  | Distribution _ => KDistribution
  | ARecord _ => KARecord
  | User _ => KUser
  | Policy _ => KPolicy
  | CfnOutput _ => KOutput
  end.

Definition Kind_eqb (a b : Kind) : bool :=
  match a, b with
  | KBucket, KBucket | KOriginAccessControl, KOriginAccessControl
  | KOriginAccessIdentity, KOriginAccessIdentity | KHostedZone, KHostedZone
  | KCertificate, KCertificate | KFunction, KFunction
  | KDistribution, KDistribution | KARecord, KARecord | KUser, KUser
  | KPolicy, KPolicy | KOutput, KOutput => true
  | _, _ => false
  end.

(** The attributes the stack reads from a construct of each kind
    ([bucketArn], [bucketName], [distributionId],
    [distributionDomainName], [attrId], [userName]). *)
Definition hasAttribute (c : Construct) (a : string) : bool :=
  match c with
  | Bucket _ => (a =? "bucketArn") || (a =? "bucketName")
  | Distribution _ => (a =? "distributionId") || (a =? "distributionDomainName")
  | CfnOriginAccessControl _ => a =? "attrId"
  | User _ => a =? "userName"
  | _ => false
  end.

(** The attribute references inside a template and inside a statement. *)
Definition templateAttrs (t : Template) : list (Ref * string) :=
  flat_map (fun p => match p with
                     | Attr c a => [(c, a)]
                     | Lit _ => []
                     end) t.

Definition statementAttrs (st : iam.PolicyStatement) : list (Ref * string) :=
  (flat_map templateAttrs (iam.resources st)
   ++ flat_map (fun oc => flat_map (fun kv => templateAttrs (snd kv)) (snd oc))
               (iam.conditions st))%list.

(** The constructs the properties of a construct name, each with the
    kind the property takes. *)
Definition references (c : Construct) : list (Ref * Kind) :=
  match c with
  | DnsValidatedCertificate p =>
      [(certificatemanager.hostedZone p, KHostedZone)]
  | Distribution p =>
      let b := cloudfront.defaultBehavior p in
      ((cloudfront.bucket (cloudfront.origin b), KBucket)
       :: match cloudfront.originAccessIdentity (cloudfront.origin b) with
          | Some i => [(i, KOriginAccessIdentity)]
          | None => []
          end
       ++ map (fun fa => (cloudfront.function fa, KFunction))
              (cloudfront.functionAssociations b)
       ++ [(cloudfront.certificate p, KCertificate)])%list
  | ARecord p =>
      [ (route53.zone p, KHostedZone);
        (match route53.target p with
         | route53.fromAlias (route53.CloudFrontTarget d) => d
         end, KDistribution) ]
  | _ => []
  end.

(** The attributes of other constructs that a construct reads. *)
Definition attributesRead (c : Construct) : list (Ref * string) :=
  match c with
  | Policy p => flat_map statementAttrs (iam.statements p)
  | CfnOutput p => templateAttrs (cdk.value p)
  | _ => []
  end.

Definition resolvesIn (cs : list (Ref * Construct)) (rk : Ref * Kind) : bool :=
  match findChild (fst rk) cs with
  | Some c => Kind_eqb (kindOf c) (snd rk)
  | None => false
  end.

Definition offersIn (cs : list (Ref * Construct)) (ra : Ref * string) : bool :=
  match findChild (fst ra) cs with
  | Some c => hasAttribute c (snd ra)
  | None => false
  end.

(** Every construct is declared under a fresh identifier, after the
    constructs it names and the constructs whose attributes it reads. *)
Fixpoint declaredInOrder (before cs : list (Ref * Construct)) : bool :=
  match cs with
  | [] => true
  | (id, c) :: cs' =>
      match findChild id before with None => true | Some _ => false end
      && forallb (resolvesIn before) (references c)
      && forallb (offersIn before) (attributesRead c)
      && declaredInOrder (before ++ [(id, c)]) cs'
  end.

(** *** What a distribution does with a viewer request *)

(** The handlers of the functions a distribution runs on viewer
    requests, in the order of their association. *)
Definition viewerRequestHandlers (s : Stack) (dp : cloudfront.DistributionProps)
  : list (UrlRewriteFn.Event -> UrlRewriteFn.Request) :=
  flat_map
    (fun fa =>
       match cloudfront.eventType fa with
       | cloudfront.VIEWER_REQUEST =>
           match findChild (cloudfront.function fa) (children s) with
           | Some (CloudFrontFunction fp) =>
               match cloudfront.code fp with
               | cloudfront.fromInline h => [h]
               end
           | _ => []
           end
       | cloudfront.VIEWER_RESPONSE => []
       end)
    (cloudfront.functionAssociations (cloudfront.defaultBehavior dp)).

(** The request as it leaves the viewer-request stage. *)
Definition forwardedRequest (s : Stack) (dp : cloudfront.DistributionProps)
    (r : UrlRewriteFn.Request) : UrlRewriteFn.Request :=
  fold_left (fun req h => h (UrlRewriteFn.mkEvent req))
            (viewerRequestHandlers s dp) r.

(** The object path asked of the origin: the default root object stands
    for the root path. *)
Definition originPath (dp : cloudfront.DistributionProps) (path : string)
  : string :=
  if path =? "/" then "/" ++ cloudfront.defaultRootObject dp else path.

(** *** What the two variants share *)

Record Shared := {
  sharedZones : list (Ref * route53.HostedZoneAttributes);
  sharedCertificates
    : list (Ref * certificatemanager.DnsValidatedCertificateProps);
  sharedRecords : list (Ref * route53.ARecordProps);
  sharedUsers : list (Ref * iam.UserProps);
  sharedPolicies : list (Ref * iam.PolicyProps);
  sharedAttachments : list (Ref * Ref);
  sharedOutputs : list (Ref * cdk.CfnOutputProps);
  sharedServing
    : list (Ref * (list string * Ref * string
                   * cloudfront.ViewerProtocolPolicy * cloudfront.CachePolicy))
}.

Definition shared (s : Stack) : Shared :=
  {| sharedZones := hostedZones s;
     sharedCertificates := certificates s;
     sharedRecords := aRecords s;
     sharedUsers := users s;
     sharedPolicies := policies s;
     sharedAttachments := inlinePolicies s;
     sharedOutputs := outputs s;
     sharedServing :=
       map (fun d =>
              (fst d,
               (cloudfront.domainNames (snd d),
                cloudfront.certificate (snd d),
                cloudfront.defaultRootObject (snd d),
                cloudfront.viewerProtocolPolicy
                  (cloudfront.defaultBehavior (snd d)),
                cloudfront.cachePolicy (cloudfront.defaultBehavior (snd d)))))
           (distributions s) |}.

(** *** Properties of the references of a stack *)

(** Every construct was declared under an identifier not used before it,
    after every construct it names (each of the kind the property takes)
    and after every construct whose attribute it reads (each offering
    that attribute). *)
Definition orderedReferences (s : Stack) : Prop :=
  forall before id c after,
    children s = (before ++ (id, c) :: after)%list ->
    findChild id before = None /\
    (forall r k, In (r, k) (references c) ->
       exists c', findChild r before = Some c' /\ kindOf c' = k) /\
    (forall r a, In (r, a) (attributesRead c) ->
       exists c', findChild r before = Some c' /\ hasAttribute c' a = true).

(** Every attribute reference of a list is to a construct of the stack
    that offers the attribute. *)
Definition attrsOffered (s : Stack) (l : list (Ref * string)) : Prop :=
  forall r a, In (r, a) l ->
    exists c, findChild r (children s) = Some c /\ hasAttribute c a = true.

(** Bucket policy entries sit on buckets of the stack and grant to
    origin access identities of the stack; raw overrides sit on
    distributions of the stack; inline policies of the stack are attached
    to users of the stack; and the attributes they read are offered. *)
Definition sideTablesTargeted (s : Stack) : Prop :=
  (forall b e, In (b, e) (resourcePolicies s) ->
     (exists bp, findChild b (children s) = Some (Bucket bp)) /\
     match e with
     | Statement st => attrsOffered s (statementAttrs st)
     | ReadGrant g =>
         exists ip, findChild g (children s) = Some (OriginAccessIdentity ip)
     end) /\
  (forall cfn o, In (cfn, o) (rawOverrides s) ->
     (exists dp, findChild cfn (children s) = Some (Distribution dp)) /\
     match o with
     | cloudfront.PropertyOverride _ v => attrsOffered s (templateAttrs v)
     | cloudfront.PropertyDeletionOverride _ => True
     end) /\
  (forall u p, In (u, p) (inlinePolicies s) ->
     (exists up, findChild u (children s) = Some (User up)) /\
     (exists pp, findChild p (children s) = Some (Policy pp))).

(** A string without hyphen. *)
Definition hyphenFree (s : string) : bool :=
  allChars (fun a => negb (Ascii.eqb a "-")) s.

(** *** The order of the raw overrides *)






(** ** Proof automation *)

(** Both constructors run to the end, whatever the domain name, the
    environment and the lookup context: the stack they leave is computed
    once and the property is read off it. *)
Ltac run_stack :=
  lazymatch goal with
  | |- exists s, ?r = Ok tt s /\ _ =>
      let t := eval lazy -[String.append Js.replaceAll cdk.account cdk.env
                           hostedZoneIdOf UrlRewriteFn.handler
                           ControlBased.bucketName IdentityBased.bucketName]
               in (stackOf r) in
      exists t; split; [vm_compute; reflexivity|]
  end.

(** A membership in a one-element list names that element. *)
Ltac only_member H :=
  cbn in H; destruct H as [H|[]];
  first [ injection H as <- <- | subst ].

(** ** Properties of the viewer-request function *)

Section UrlRewriteFacts.

Import UrlRewriteFn.

(** A non-empty string splits into its front and its last unit. *)
Lemma last_unit (s : string) :
  s <> "" ->
  exists p c, s = p ++ String c "" /\
              String.get (String.length s - 1) s = Some c.
Proof.
  induction s as [|a s IH]; intros Hne; [congruence|].
  destruct s as [|b s].
  - exists "", a. split; reflexivity.
  - destruct IH as (p & c & Hs & Hg); [discriminate|].
    exists (String a p), c. split.
    + simpl. now rewrite <- Hs.
    + simpl in *. now rewrite Nat.sub_0_r in *.
Qed.

Lemma append_unit_inj (p q : string) (c d : ascii) :
  p ++ String c "" = q ++ String d "" -> p = q /\ c = d.
Proof.
  revert q. induction p as [|a p IH]; intros [|b q] H; simpl in H.
  - now inversion H.
  - inversion H as [[Ha Hq]]. destruct q; discriminate.
  - inversion H as [[Ha Hp]]. destruct p; discriminate.
  - inversion H as [[Ha Hp]]. apply IH in Hp as [-> ->]. now split.
Qed.

(** [charAt] at the last index tests the last unit. *)
Lemma charAt_last_slash (u : string) :
  u <> "" ->
  (Js.charAt u (Js.length u - 1) =? "/") = true <->
  exists p, u = p ++ "/".
Proof.
  intros Hne. unfold Js.charAt, Js.length.
  destruct (last_unit u Hne) as (p & c & Hu & Hg).
  assert (Hlen : (0 < String.length u)%nat).
  { destruct u; [congruence | simpl; lia]. }
  replace (Z.of_nat (String.length u) - 1 <? 0)%Z with false
    by (symmetry; apply Z.ltb_ge; lia).
  replace (Z.to_nat (Z.of_nat (String.length u) - 1))
    with (String.length u - 1)%nat by lia.
  rewrite Hg. split.
  - intros H. apply String.eqb_eq in H. inversion H; subst c.
    now exists p.
  - intros [q Hq]. rewrite Hq in Hu.
    apply append_unit_inj in Hu as [_ <-]. reflexivity.
Qed.

Lemma indexOfFrom_none (s : string) (c : ascii) (k : Z) :
  (0 <= k)%Z ->
  (Js.indexOfFrom s c k =? -1)%Z = true <->
  forall i, String.get i s <> Some c.
Proof.
  revert k. induction s as [|a s IH]; intros k Hk; simpl.
  - split; [intros _ i; destruct i; discriminate | reflexivity].
  - destruct (Ascii.eqb a c) eqn:E.
    + apply Ascii.eqb_eq in E; subst a. split.
      * intros H. apply Z.eqb_eq in H. lia.
      * intros H. exfalso. now apply (H 0%nat).
    + rewrite (IH (k + 1)%Z) by lia. split.
      * intros H [|i]; simpl; [|apply H].
        intros Heq. inversion Heq; subst a.
        now rewrite Ascii.eqb_refl in E.
      * intros H i. apply (H (S i)).
Qed.

(** [indexOf] answers [-1] exactly when no index holds the unit. *)
Lemma indexOf_none (s : string) (c : ascii) :
  (Js.indexOf s c =? -1)%Z = true <->
  forall i, String.get i s <> Some c.
Proof. apply indexOfFrom_none. lia. Qed.

Lemma truthy_long (u : string) :
  Js.truthy u && (Js.length u >? 1)%Z = (1 <? String.length u)%nat.
Proof.
  unfold Js.truthy, Js.length. destruct u as [|a [|b u]]; try reflexivity.
  cbn [String.eqb negb andb String.length].
  rewrite Z.gtb_ltb.
  transitivity true; [apply Z.ltb_lt; lia | symmetry; apply Nat.ltb_lt; lia].
Qed.

(** C1 (as stated) fails on the code: the root path [/] is forwarded
    unchanged, not as [/index.html]; and a path whose final segment has
    no [.] is still left unchanged when an earlier segment has one. *)
Lemma rewrite_root_and_dotted_directory :
  rewritten "/" <> "/index.html" /\
  rewritten "/" <> specRewrite "/" /\
  rewritten "/v1.0/about" <> specRewrite "/v1.0/about".
Proof. repeat split; discriminate. Qed.

(** The cases of the handler on a path. *)
Lemma handler_uri_cases (event : Event) :
  let u := uri (request event) in
  let v := uri (handler event) in
  ((String.length u <= 1)%nat -> v = u) /\
  ((1 < String.length u)%nat ->
     ((exists p, u = p ++ "/") -> v = u ++ "index.html") /\
     (~ (exists p, u = p ++ "/") ->
        ((forall i, String.get i u <> Some "."%char) ->
           v = u ++ "/index.html") /\
        ((exists i, String.get i u = Some "."%char) -> v = u))).
Proof.
  destruct event as [[u ps]]. cbn zeta. unfold handler.
  cbn [request uri properties]. rewrite truthy_long. split.
  - intros H. apply Nat.ltb_ge in H. now rewrite H.
  - intros H. assert (Hne : u <> "") by (intros ->; simpl in H; lia).
    apply Nat.ltb_lt in H. rewrite H.
    pose proof (charAt_last_slash u Hne) as Hs.
    pose proof (indexOf_none u "."%char) as Hd.
    split.
    + intros He. apply Hs in He. now rewrite He.
    + intros He.
      destruct (Js.charAt u (Js.length u - 1) =? "/") eqn:E;
        [exfalso; apply He; now apply Hs|].
      split.
      * intros Hn. apply Hd in Hn. now rewrite Hn.
      * intros [i Hi].
        destruct (Js.indexOf u "." =? -1)%Z eqn:E'; [|reflexivity].
        exfalso. now apply (proj1 Hd eq_refl i).
Qed.

Lemma handler_keeps_properties (event : Event) :
  properties (handler event) = properties (request event).
Proof.
  destruct event as [[u ps]]. unfold handler. cbn [request uri properties].
  destruct (Js.truthy u && (Js.length u >? 1)%Z); [|reflexivity].
  destruct (Js.charAt u (Js.length u - 1) =? "/"); [reflexivity|].
  now destruct (Js.indexOf u "." =? -1)%Z.
Qed.

(** C1 (amended): the handler leaves a path of at most one unit (the
    empty path, the root [/]) unchanged; a longer path gets
    [index.html] appended when it ends in [/], else [/index.html]
    appended when the whole path holds no [.], and is otherwise
    unchanged; no other property of the request changes.  So [/blog/]
    becomes [/blog/index.html], [/about] becomes [/about/index.html],
    [/style.css] and [/] stay as they are. *)
Theorem handler_rewrites_uri :
  forall event : Event,
    let u := uri (request event) in
    let v := uri (handler event) in
    ((String.length u <= 1)%nat -> v = u) /\
    ((1 < String.length u)%nat ->
       ((exists p, u = p ++ "/") -> v = u ++ "index.html") /\
       (~ (exists p, u = p ++ "/") ->
          ((forall i, String.get i u <> Some "."%char) ->
             v = u ++ "/index.html") /\
          ((exists i, String.get i u = Some "."%char) -> v = u))) /\
    properties (handler event) = properties (request event) /\
    rewritten "/blog/" = "/blog/index.html" /\
    rewritten "/about" = "/about/index.html" /\
    rewritten "/style.css" = "/style.css" /\
    rewritten "/" = "/".
Proof.
  intros event u v.
  destruct (handler_uri_cases event) as [Hshort Hlong].
  split; [exact Hshort|]. split; [exact Hlong|].
  split; [apply handler_keeps_properties|]. repeat split.
Qed.

Lemma contains_get (s : string) (c : ascii) :
  contains s c = true <-> exists i, String.get i s = Some c.
Proof.
  induction s as [|a s IH]; simpl.
  - split; [discriminate | intros [[|i] H]; discriminate].
  - rewrite orb_true_iff, IH, Ascii.eqb_eq. split.
    + intros [->|[i Hi]]; [now exists 0%nat | now exists (S i)].
    + intros [[|i] Hi]; [left; now inversion Hi | right; now exists i].
Qed.

Lemma endsWith_last (s : string) (c : ascii) :
  endsWith s c = true <-> exists p, s = p ++ String c "".
Proof.
  induction s as [|a s IH].
  - split; [discriminate | intros [[|b p] H]; discriminate].
  - destruct s as [|b s].
    + simpl. rewrite Ascii.eqb_eq. split.
      * intros ->. now exists "".
      * intros [[|x p] H]; simpl in H; [now inversion H|].
        inversion H as [[Ha Hp]]. destruct p; discriminate.
    + change (endsWith (String a (String b s)) c)
        with (endsWith (String b s) c).
      rewrite IH. split.
      * intros [p Hp]. exists (String a p). simpl. now rewrite Hp.
      * intros [[|x p] H]; simpl in H; [discriminate|].
        inversion H as [[Ha Hp]]. now exists p.
Qed.

(** Where the path has more than one unit and holds a [.] exactly when
    its final segment does, the handler is the rewrite the
    specification words. *)
Lemma rewritten_agrees_with_specRewrite (path : string) :
  (1 < String.length path)%nat ->
  contains path "." = contains (finalSegment path) "." ->
  rewritten path = specRewrite path.
Proof.
  intros Hlen Hdot.
  destruct (handler_uri_cases (mkEvent (mkRequest path [])))
    as (_ & H).
  specialize (H Hlen). cbn [request uri] in H. destruct H as [Hs Hn].
  unfold specRewrite, rewritten.
  destruct (endsWith path "/") eqn:E.
  - apply Hs. now apply endsWith_last.
  - assert (Hno : ~ (exists p, path = p ++ "/")).
    { intros Hp. apply endsWith_last in Hp. congruence. }
    destruct (Hn Hno) as [Hnodot Hhasdot]. rewrite <- Hdot.
    destruct (contains path ".") eqn:C; cbn [negb].
    + apply Hhasdot. now apply contains_get.
    + apply Hnodot. intros i Hi.
      assert (contains path "." = true) by (apply contains_get; now exists i).
      congruence.
Qed.

End UrlRewriteFacts.

(** ** Properties of the synthesized stacks *)

Lemma append_empty_r (s : string) : s ++ "" = s.
Proof. induction s as [|c s IH]; simpl; [|rewrite IH]; reflexivity. Qed.

(** Two ARNs of one account are equal only for equal distribution ids. *)
Lemma append_cancel (p a b : string) : p ++ a = p ++ b -> a = b.
Proof. induction p as [|c p IH]; simpl; intros H; [|inversion H]; auto. Qed.




(** C3: in both variants the stack creates one deployment user with one
    attached policy of exactly two allow statements: the object actions
    [s3:PutObject], [s3:PutObjectAcl], [s3:GetObject], [s3:DeleteObject],
    [s3:ListBucket] on the stack's bucket ARN and that ARN plus [/*], and
    [cloudfront:CreateInvalidation] on the ARN of the stack's own
    distribution; nothing else is granted and no other resource is
    named. *)
Theorem deploy_policy_least_privilege :
  forall (domainName : string) (props : cdk.StackProps) (ctx : Context),
    (exists s,
       ControlBased.construct domainName props ctx emptyStack = Ok tt s /\
       deployIdentityScoped (cdk.account (cdk.env props)) s) /\
    (exists s,
       IdentityBased.construct domainName props ctx emptyStack = Ok tt s /\
       deployIdentityScoped (cdk.account (cdk.env props)) s).
Proof.
  intros domainName props ctx. split.
  - run_stack. unfold deployIdentityScoped.
    exists "SiteBucket". eexists. exists "Distribution". eexists.
    exists "GitHubActionsUser". eexists. exists "DeployPolicy".
    eexists _, _.
    repeat (split; [reflexivity|]). intros rho. cbn.
    now rewrite !append_empty_r.
  - run_stack. unfold deployIdentityScoped.
    exists "SiteBucket". eexists. exists "Distribution". eexists.
    exists "GitHubActionsUser". eexists. exists "DeployPolicy".
    eexists _, _.
    repeat (split; [reflexivity|]). intros rho. cbn.
    now rewrite !append_empty_r.
Qed.

(** C4: in both variants, for every domain name, environment and lookup
    context, the stack's one bucket is created with the complete
    public-access block, public read off and no canned ACL, and no entry
    of its resource policy names the anonymous principal; the website
    documents the identity-based variant configures leave the block in
    place. *)
Theorem bucket_public_access_blocked :
  forall (domainName : string) (props : cdk.StackProps) (ctx : Context),
    (exists s,
       ControlBased.construct domainName props ctx emptyStack = Ok tt s /\
       publicAccessBlocked s) /\
    (exists s,
       IdentityBased.construct domainName props ctx emptyStack = Ok tt s /\
       publicAccessBlocked s /\
       exists bp, buckets s = [("SiteBucket", bp)] /\
                  s3.websiteIndexDocument bp = Some "index.html" /\
                  s3.blockPublicAccess bp = s3.BLOCK_ALL).
Proof.
  intros domainName props ctx. split.
  - run_stack. exists "SiteBucket". eexists. repeat (split; [reflexivity|]).
    intros e He. only_member He. intros [H|[]]. discriminate H.
  - run_stack. split.
    + exists "SiteBucket". eexists. repeat (split; [reflexivity|]).
      intros e He. only_member He. intros [H|[]]. discriminate H.
    + eexists. repeat split.
Qed.

(** C5 (as stated) fails on the identity-based variant: its distribution
    has no error response for an origin 403. *)
Lemma identity_based_leaves_forbidden_unmapped :
  exists s,
    IdentityBased.FowlerDevStack "FowlerDevStack"
      (exampleProps "123456789012" "us-east-1") (exampleContext "Z1")
    = Ok tt s /\
    ~ mapsForbiddenAndMissing s.
Proof.
  run_stack. intros (d & dp & Hd & (e & He & _) & _).
  cbn in Hd. injection Hd as <- <-. discriminate He.
Qed.

(** C5 (amended): in the control-based variant the distribution answers
    both an origin 403 and an origin 404 with the page [/404.html],
    outward status 404, each kept for thirty minutes; in the
    identity-based variant it does so for an origin 404 only and has no
    error response for 403. *)
Theorem error_responses_by_variant :
  forall (domainName : string) (props : cdk.StackProps) (ctx : Context),
    (exists s,
       ControlBased.construct domainName props ctx emptyStack = Ok tt s /\
       mapsForbiddenAndMissing s) /\
    (exists s,
       IdentityBased.construct domainName props ctx emptyStack = Ok tt s /\
       exists d dp,
         distributions s = [(d, dp)] /\
         servesNotFoundPage dp 404 /\
         errorResponseFor dp 403 = None).
Proof.
  intros domainName props ctx. split.
  - run_stack. exists "Distribution". eexists.
    split; [reflexivity|]. split; eexists; repeat split.
  - run_stack. exists "Distribution". eexists.
    split; [reflexivity|]. split; [eexists; repeat split | reflexivity].
Qed.

(** C6: in both variants and for every domain name, the alias records
    the stack creates answer for exactly the distribution's domain
    names, the bare domain and [www.<domain>], and each is an alias of
    the distribution. *)
Theorem alias_records_match_domain_names :
  forall (domainName : string) (props : cdk.StackProps) (ctx : Context),
    (exists s,
       ControlBased.construct domainName props ctx emptyStack = Ok tt s /\
       aliasRecordsMatch domainName s) /\
    (exists s,
       IdentityBased.construct domainName props ctx emptyStack = Ok tt s /\
       aliasRecordsMatch domainName s).
Proof.
  intros domainName props ctx. split; run_stack;
    exists "Distribution"; eexists; repeat (split; [reflexivity|]);
    intros r Hr; cbn in Hr; destruct Hr as [<-|[<-|[]]]; reflexivity.
Qed.




(** C9: in both variants, whatever the region of the stack, the one
    certificate is a DNS-validated certificate for the bare domain with
    the single alternative name [www.<domain>], validated in the zone
    looked up for the domain, in region us-east-1. *)
Theorem certificate_covers_domain_in_us_east_1 :
  forall (domainName : string) (props : cdk.StackProps) (ctx : Context),
    (exists s,
       ControlBased.construct domainName props ctx emptyStack = Ok tt s /\
       certificateCovers domainName s) /\
    (exists s,
       IdentityBased.construct domainName props ctx emptyStack = Ok tt s /\
       certificateCovers domainName s).
Proof.
  intros domainName props ctx. split; run_stack;
    exists "SiteCertificate"; eexists _, _; repeat split.
Qed.

(** *** The bucket name *)

Lemma string_length_append (a b : string) :
  String.length (a ++ b) = String.length a + String.length b.
Proof. induction a as [|c a IH]; simpl; [|rewrite IH]; reflexivity. Qed.

Lemma allChars_append (f : ascii -> bool) (a b : string) :
  allChars f (a ++ b) = allChars f a && allChars f b.
Proof.
  induction a as [|c a IH]; simpl; [reflexivity|].
  now rewrite IH, andb_assoc.
Qed.

Lemma allChars_weaken (f g : ascii -> bool) (s : string) :
  (forall c, f c = true -> g c = true) ->
  allChars f s = true -> allChars g s = true.
Proof.
  intros Hfg. induction s as [|c s IH]; simpl; [reflexivity|].
  rewrite !andb_true_iff. intros [Hc Hs]. split; auto.
Qed.

Lemma isDigit_isLabelChar (c : ascii) : isDigit c = true -> isLabelChar c = true.
Proof. unfold isLabelChar. intros ->. now rewrite orb_true_r. Qed.

(** Replacing every dot leaves no dot, keeps the length and turns host
    name characters into label characters. *)
Lemma replaceAll_removes (s : string) (c r : ascii) :
  c <> r -> allChars (fun a => negb (Ascii.eqb a c)) (Js.replaceAll s c r) = true.
Proof.
  intros Hcr. induction s as [|a s IH]; simpl; [reflexivity|].
  rewrite IH, andb_true_r. destruct (Ascii.eqb a c) eqn:E.
  - apply negb_true_iff, Ascii.eqb_neq. congruence.
  - now rewrite E.
Qed.

Lemma replaceAll_length (s : string) (c r : ascii) :
  String.length (Js.replaceAll s c r) = String.length s.
Proof. induction s as [|a s IH]; simpl; [|rewrite IH]; reflexivity. Qed.

Lemma sanitizedDomain_label_chars (d : string) :
  allChars isHostChar d = true ->
  allChars isLabelChar (ControlBased.sanitizedDomain d) = true.
Proof.
  unfold ControlBased.sanitizedDomain.
  induction d as [|a d IH]; simpl; [reflexivity|].
  rewrite !andb_true_iff. intros [Ha Hd]. split; [|auto].
  destruct (Ascii.eqb a ".") eqn:E; [reflexivity|].
  unfold isHostChar in Ha. now rewrite E, orb_false_r in Ha.
Qed.

Lemma append_cancel_r (a b t : string) : a ++ t = b ++ t -> a = b.
Proof.
  revert b. induction a as [|c a IH]; intros [|d b] H; simpl in H.
  - reflexivity.
  - exfalso. apply (f_equal String.length) in H. simpl in H.
    rewrite string_length_append in H. lia.
  - exfalso. apply (f_equal String.length) in H. simpl in H.
    rewrite string_length_append in H. lia.
  - injection H as -> H. f_equal. now apply IH.
Qed.

Lemma get_append_right (a b : string) (i : nat) :
  String.get (String.length a + i) (a ++ b) = String.get i b.
Proof. induction a as [|c a IH]; simpl; auto. Qed.

Lemma lastChar_append (a b : string) :
  b <> "" -> lastChar (a ++ b) = lastChar b.
Proof.
  intros Hb. unfold lastChar. rewrite string_length_append.
  replace (String.length a + String.length b - 1)
    with (String.length a + (String.length b - 1)).
  - apply get_append_right.
  - destruct b; [congruence | simpl; lia].
Qed.

(** C7 (as stated) fails on the identity-based variant: its bucket name
    keeps the dot of the domain, is no DNS label, and is the same for two
    different accounts. *)
Lemma identity_based_bucket_name_keeps_dot :
  (exists s,
     IdentityBased.FowlerDevStack "FowlerDevStack"
       (exampleProps "111111111111" "us-east-1") (exampleContext "Z1")
     = Ok tt s /\
     map (fun b => s3.bucketName (snd b)) (buckets s)
     = ["fowler.dev-hugo-site"]) /\
  (exists s,
     IdentityBased.FowlerDevStack "FowlerDevStack"
       (exampleProps "222222222222" "us-east-1") (exampleContext "Z1")
     = Ok tt s /\
     map (fun b => s3.bucketName (snd b)) (buckets s)
     = ["fowler.dev-hugo-site"]) /\
  allChars (fun a => negb (Ascii.eqb a ".")) "fowler.dev-hugo-site" = false /\
  dnsLabelSafe "fowler.dev-hugo-site" = false.
Proof. split; [|split]; [run_stack; reflexivity .. | split; reflexivity]. Qed.

(** C7 (amended): in the control-based variant the bucket name is the
    domain with every dot replaced by a hyphen, then [-], the account
    identifier and [-hugo-site]: a function of the domain and the account
    alone, in which no dot of the domain is left, of the length of domain
    and account plus eleven, made of lowercase letters, digits and
    hyphens when the domain is made of those and dots and the account of
    digits, different for different accounts, and for the domain
    [fowler.dev] and a twelve-digit account a DNS label.  In the
    identity-based variant the name is the domain followed by
    [-hugo-site]: dots stay and the account is not used. *)
Theorem bucket_name_by_variant :
  forall (domainName : string) (props : cdk.StackProps) (ctx : Context),
    let account := cdk.account (cdk.env props) in
    (exists s,
       ControlBased.construct domainName props ctx emptyStack = Ok tt s /\
       map (fun b => s3.bucketName (snd b)) (buckets s)
       = [Js.replaceAll domainName "." "-" ++ "-" ++ account ++ "-hugo-site"]) /\
    allChars (fun a => negb (Ascii.eqb a "."))
             (ControlBased.sanitizedDomain domainName) = true /\
    String.length (ControlBased.bucketName domainName account)
    = String.length domainName + String.length account + 11 /\
    (allChars isHostChar domainName = true ->
     allChars isDigit account = true ->
     allChars isLabelChar (ControlBased.bucketName domainName account) = true) /\
    (forall account',
       ControlBased.bucketName domainName account'
       = ControlBased.bucketName domainName account ->
       account' = account) /\
    (allChars isDigit account = true ->
     String.length account = 12 ->
     dnsLabelSafe (ControlBased.bucketName ControlBased.domainName account)
     = true) /\
    (exists s,
       IdentityBased.construct domainName props ctx emptyStack = Ok tt s /\
       map (fun b => s3.bucketName (snd b)) (buckets s)
       = [domainName ++ "-hugo-site"]).
Proof.
  intros domainName props ctx account.
  split; [|split; [|split; [|split; [|split; [|split]]]]].
  - run_stack. reflexivity.
  - apply replaceAll_removes. discriminate.
  - unfold ControlBased.bucketName, ControlBased.sanitizedDomain.
    rewrite !string_length_append, replaceAll_length. simpl. lia.
  - intros Hd Ha. unfold ControlBased.bucketName.
    rewrite !allChars_append, (sanitizedDomain_label_chars _ Hd).
    now rewrite (allChars_weaken _ _ _ isDigit_isLabelChar Ha).
  - intros account'. unfold ControlBased.bucketName. intros H.
    apply append_cancel in H. apply append_cancel in H.
    now apply append_cancel_r in H.
  - intros Ha Hlen. unfold dnsLabelSafe.
    assert (Hl : String.length
                   (ControlBased.bucketName ControlBased.domainName account)
                 = 33).
    { unfold ControlBased.bucketName.
      rewrite !string_length_append, Hlen. reflexivity. }
    rewrite Hl.
    replace (lastChar (ControlBased.bucketName ControlBased.domainName account))
      with (Some "e"%char).
    + unfold ControlBased.bucketName.
      rewrite !allChars_append.
      rewrite (allChars_weaken _ _ _ isDigit_isLabelChar Ha). reflexivity.
    + unfold ControlBased.bucketName.
      rewrite !lastChar_append by (destruct account; simpl; discriminate).
      reflexivity.
  - run_stack. reflexivity.
Qed.


(** ** Further properties of the viewer-request function *)

Section UrlRewriteMore.

Import UrlRewriteFn.

Lemma contains_append (a b : string) (c : ascii) :
  contains (a ++ b) c = contains a c || contains b c.
Proof.
  induction a as [|x a IH]; simpl; [reflexivity|].
  now rewrite IH, orb_assoc.
Qed.

Lemma endsWith_append (a b : string) (c : ascii) :
  b <> "" -> endsWith (a ++ b) c = endsWith b c.
Proof.
  intros Hb. induction a as [|x a IH]; [reflexivity|].
  change (String x a ++ b) with (String x (a ++ b)).
  destruct (a ++ b) eqn:E.
  - destruct a; [simpl in E; congruence | discriminate].
  - rewrite <- IH. reflexivity.
Qed.

Lemma prefix_append (p x : string) : String.prefix p (p ++ x) = true.
Proof.
  induction p as [|a p IH]; simpl; [now destruct x|].
  destruct (ascii_dec a a); [exact IH | congruence].
Qed.

(** The path the function forwards, by the tests it makes. *)
Lemma rewritten_by_tests (path : string) :
  rewritten path =
  if (String.length path <=? 1)%nat then path
  else if endsWith path "/" then path ++ "index.html"
  else if contains path "." then path
  else path ++ "/index.html".
Proof.
  destruct (handler_uri_cases (mkEvent (mkRequest path []))) as [Hshort Hlong].
  cbn [request uri] in Hshort, Hlong. fold (rewritten path) in Hshort, Hlong.
  destruct (String.length path <=? 1)%nat eqn:L.
  - apply Hshort. now apply Nat.leb_le.
  - apply Nat.leb_gt in L. destruct (Hlong L) as [Hs Hn].
    destruct (endsWith path "/") eqn:E.
    + apply Hs. now apply endsWith_last.
    + assert (Hno : ~ (exists p, path = p ++ "/")).
      { intros Hp. apply endsWith_last in Hp. congruence. }
      destruct (Hn Hno) as [Hnodot Hdot].
      destruct (contains path ".") eqn:C.
      * apply Hdot. now apply contains_get.
      * apply Hnodot. intros i Hi.
        assert (contains path "." = true)
          by (apply contains_get; now exists i).
        congruence.
Qed.

Lemma handler_by_rewritten (event : Event) :
  handler event =
  {| uri := rewritten (uri (request event));
     properties := properties (request event) |}.
Proof.
  destruct event as [[u ps]]. unfold rewritten, handler.
  cbn [request uri properties].
  destruct (Js.truthy u && (Js.length u >? 1)%Z); [|reflexivity].
  destruct (Js.charAt u (Js.length u - 1) =? "/"); [reflexivity|].
  now destruct (Js.indexOf u "." =? -1)%Z.
Qed.

Lemma rewritten_fixed (path : string) :
  (1 < String.length path)%nat ->
  endsWith path "/" = false -> contains path "." = true ->
  rewritten path = path.
Proof.
  intros L E C. rewrite rewritten_by_tests, E, C.
  now replace (String.length path <=? 1)%nat with false
    by (symmetry; apply Nat.leb_gt; exact L).
Qed.

Lemma rewritten_idempotent (path : string) :
  rewritten (rewritten path) = rewritten path.
Proof.
  rewrite (rewritten_by_tests path).
  destruct (String.length path <=? 1)%nat eqn:L.
  - rewrite rewritten_by_tests. now rewrite L.
  - apply Nat.leb_gt in L.
    destruct (endsWith path "/") eqn:E; [|destruct (contains path ".") eqn:C].
    + apply rewritten_fixed.
      * rewrite string_length_append. lia.
      * now rewrite endsWith_append by discriminate.
      * rewrite contains_append. apply orb_true_r.
    + now apply rewritten_fixed.
    + apply rewritten_fixed.
      * rewrite string_length_append. lia.
      * now rewrite endsWith_append by discriminate.
      * rewrite contains_append. apply orb_true_r.
Qed.

(** X1: the handler is idempotent: run on its own result, it returns
    that result unchanged, for every request. *)
Theorem handler_idempotent :
  forall event : Event,
    handler (mkEvent (handler event)) = handler event.
Proof.
  intros event. rewrite (handler_by_rewritten event).
  rewrite handler_by_rewritten. cbn [request uri properties].
  now rewrite rewritten_idempotent.
Qed.

(** X2: the handler only appends to the path, and a path of more than
    one unit is always forwarded as a path that holds a [.] and does not
    end in [/]; a path of at most one unit is forwarded as it is. *)
Theorem rewritten_names_a_document :
  forall path : string,
    String.prefix path (rewritten path) = true /\
    (((String.length path <= 1)%nat /\ rewritten path = path) \/
     ((1 < String.length path)%nat /\
      contains (rewritten path) "." = true /\
      endsWith (rewritten path) "/" = false)).
Proof.
  intros path. rewrite rewritten_by_tests.
  destruct (String.length path <=? 1)%nat eqn:L.
  - split; [|left; split; [now apply Nat.leb_le | reflexivity]].
    rewrite <- (append_empty_r path) at 2. apply prefix_append.
  - apply Nat.leb_gt in L.
    destruct (endsWith path "/") eqn:E; [|destruct (contains path ".") eqn:C].
    + split; [apply prefix_append|]. right. split; [exact L|]. split.
      * rewrite contains_append. apply orb_true_r.
      * now rewrite endsWith_append by discriminate.
    + split; [|right; now repeat split].
      rewrite <- (append_empty_r path) at 2. apply prefix_append.
    + split; [apply prefix_append|]. right. split; [exact L|]. split.
      * rewrite contains_append. apply orb_true_r.
      * now rewrite endsWith_append by discriminate.
Qed.

End UrlRewriteMore.

(** ** Further properties of the synthesized stacks *)

Lemma Kind_eqb_eq (a b : Kind) : Kind_eqb a b = true -> a = b.
Proof. destruct a, b; simpl; intros H; try reflexivity; discriminate H. Qed.

Lemma resolvesIn_sound (cs : list (Ref * Construct)) (r : Ref) (k : Kind) :
  resolvesIn cs (r, k) = true ->
  exists c, findChild r cs = Some c /\ kindOf c = k.
Proof.
  unfold resolvesIn. cbn [fst snd].
  destruct (findChild r cs) as [c|]; [|discriminate].
  intros H. exists c. split; [reflexivity | now apply Kind_eqb_eq].
Qed.

Lemma offersIn_sound (cs : list (Ref * Construct)) (r : Ref) (a : string) :
  offersIn cs (r, a) = true ->
  exists c, findChild r cs = Some c /\ hasAttribute c a = true.
Proof.
  unfold offersIn. cbn [fst snd].
  destruct (findChild r cs) as [c|]; [|discriminate].
  intros H. now exists c.
Qed.

(** The check of the declaration order means what it says. *)
Lemma declaredInOrder_sound (cs pre : list (Ref * Construct)) :
  declaredInOrder pre cs = true ->
  forall before id c after,
    cs = (before ++ (id, c) :: after)%list ->
    findChild id (pre ++ before)%list = None /\
    (forall r k, In (r, k) (references c) ->
       exists c', findChild r (pre ++ before)%list = Some c' /\ kindOf c' = k) /\
    (forall r a, In (r, a) (attributesRead c) ->
       exists c', findChild r (pre ++ before)%list = Some c' /\
                  hasAttribute c' a = true).
Proof.
  revert pre. induction cs as [|[i x] cs IH]; intros pre H before id c after E.
  - destruct before; discriminate E.
  - cbn [declaredInOrder] in H. rewrite !andb_true_iff in H.
    destruct H as [[[Hfresh Hrefs] Hattrs] Hrest].
    destruct before as [|y before]; cbn [app] in E.
    + injection E as -> -> ->. rewrite app_nil_r. split; [|split].
      * now destruct (findChild id pre).
      * intros r k Hin. apply resolvesIn_sound.
        now apply (proj1 (forallb_forall _ _) Hrefs (r, k)).
      * intros r a Hin. apply offersIn_sound.
        now apply (proj1 (forallb_forall _ _) Hattrs (r, a)).
    + injection E as <- ->.
      specialize (IH (pre ++ [(i, x)])%list Hrest before id c after eq_refl).
      now rewrite <- app_assoc in IH.
Qed.

(** X3: in both variants every construct is declared under a fresh
    identifier, after the constructs its properties name and after the
    constructs whose attributes it reads: the bucket before the
    distribution, the hosted zone before the certificate, the distribution
    before its alias records, its policy and its outputs. *)
Theorem constructs_declared_in_dependency_order :
  forall (domainName : string) (props : cdk.StackProps) (ctx : Context),
    (exists s,
       ControlBased.construct domainName props ctx emptyStack = Ok tt s /\
       orderedReferences s) /\
    (exists s,
       IdentityBased.construct domainName props ctx emptyStack = Ok tt s /\
       orderedReferences s).
Proof.
  intros domainName props ctx. split; run_stack;
    intros before id c after E;
    match type of E with
    | ?cs = _ =>
        assert (Hcheck : declaredInOrder [] cs = true)
          by (vm_compute; reflexivity);
        exact (declaredInOrder_sound cs [] Hcheck before id c after E)
    end.
Qed.

Ltac offered :=
  let r := fresh "r" in let a := fresh "a" in let H := fresh "H" in
  intros r a H; cbn in H;
  repeat (destruct H as [H|H]; [injection H as <- <-; eexists; split; reflexivity|]);
  destruct H.

(** X4: in both variants every entry of a bucket policy sits on a bucket
    of the stack, every read grant goes to an origin access identity of
    the stack, every raw override sits on a distribution of the stack,
    every inline policy is a policy of the stack attached to a user of the
    stack, and every attribute these read belongs to a construct of the
    stack that offers it. *)
Theorem policies_and_overrides_target_own_constructs :
  forall (domainName : string) (props : cdk.StackProps) (ctx : Context),
    (exists s,
       ControlBased.construct domainName props ctx emptyStack = Ok tt s /\
       sideTablesTargeted s) /\
    (exists s,
       IdentityBased.construct domainName props ctx emptyStack = Ok tt s /\
       sideTablesTargeted s).
Proof.
  intros domainName props ctx. split; run_stack; (split; [|split]).
  - intros b e H. only_member H. split; [eexists; reflexivity | offered].
  - intros cfn o H. cbn in H.
    destruct H as [H|[H|[H|[]]]]; injection H as <- <-;
      (split; [eexists; reflexivity | try exact I; offered]).
  - intros u p H. only_member H. split; eexists; reflexivity.
  - intros b e H. only_member H. split; eexists; reflexivity.
  - intros cfn o [].
  - intros u p H. only_member H. split; eexists; reflexivity.
Qed.

(** X5: in both variants the certificate attached to the distribution is
    the stack's certificate, and the names it covers (its domain name
    and its alternative names) are exactly the distribution's domain
    names. *)
Theorem certificate_covers_distribution_names :
  forall (domainName : string) (props : cdk.StackProps) (ctx : Context),
    (exists s,
       ControlBased.construct domainName props ctx emptyStack = Ok tt s /\
       exists d dp cp,
         distributions s = [(d, dp)] /\
         findChild (cloudfront.certificate dp) (children s)
         = Some (DnsValidatedCertificate cp) /\
         certificatemanager.domainName cp
           :: certificatemanager.subjectAlternativeNames cp
         = cloudfront.domainNames dp) /\
    (exists s,
       IdentityBased.construct domainName props ctx emptyStack = Ok tt s /\
       exists d dp cp,
         distributions s = [(d, dp)] /\
         findChild (cloudfront.certificate dp) (children s)
         = Some (DnsValidatedCertificate cp) /\
         certificatemanager.domainName cp
           :: certificatemanager.subjectAlternativeNames cp
         = cloudfront.domainNames dp).
Proof.
  intros domainName props ctx. split; run_stack;
    exists "Distribution"; eexists _, _; repeat split.
Qed.

(** X6: the control-based distribution has an error response for an
    origin status exactly when the status is 403 or 404, the
    identity-based one exactly when it is 404; every other status passes
    unmapped, and no response that exists answers with a status other
    than 404 or a page other than [/404.html]. *)
Theorem error_responses_only_for_missing_pages :
  forall (domainName : string) (props : cdk.StackProps) (ctx : Context),
    (exists s,
       ControlBased.construct domainName props ctx emptyStack = Ok tt s /\
       exists d dp,
         distributions s = [(d, dp)] /\
         forall status,
           (errorResponseFor dp status = None <->
            status <> 403 /\ status <> 404) /\
           (forall e, errorResponseFor dp status = Some e ->
              cloudfront.httpStatus e = status /\
              cloudfront.responseHttpStatus e = 404 /\
              cloudfront.responsePagePath e = "/404.html")) /\
    (exists s,
       IdentityBased.construct domainName props ctx emptyStack = Ok tt s /\
       exists d dp,
         distributions s = [(d, dp)] /\
         forall status,
           (errorResponseFor dp status = None <-> status <> 404) /\
           (forall e, errorResponseFor dp status = Some e ->
              cloudfront.httpStatus e = status /\
              cloudfront.responseHttpStatus e = 404 /\
              cloudfront.responsePagePath e = "/404.html")).
Proof.
  intros domainName props ctx. split; run_stack;
    exists "Distribution"; eexists; (split; [reflexivity|]);
    intros status; unfold errorResponseFor;
    cbn [cloudfront.errorResponses find cloudfront.httpStatus].
  - destruct (Nat.eqb_spec 403 status) as [E3|N3];
      [|destruct (Nat.eqb_spec 404 status) as [E4|N4]].
    + split; [split; [discriminate | intros [H _]; congruence]|].
      intros e H. injection H as <-. now repeat split.
    + split; [split; [discriminate | intros [_ H]; congruence]|].
      intros e H. injection H as <-. now repeat split.
    + split; [split; [intros _; split; congruence | reflexivity]|].
      discriminate.
  - destruct (Nat.eqb_spec 404 status) as [E4|N4].
    + split; [split; [discriminate | congruence]|].
      intros e H. injection H as <-. now repeat split.
    + split; [split; [intros _; congruence | reflexivity]|].
      discriminate.
Qed.

Lemma rewritten_long_has_dot (path : string) :
  (1 < String.length path)%nat ->
  UrlRewriteFn.contains (UrlRewriteFn.rewritten path) "." = true.
Proof.
  intros L. rewrite rewritten_by_tests.
  replace (String.length path <=? 1)%nat with false
    by (symmetry; apply Nat.leb_gt; exact L).
  destruct (UrlRewriteFn.endsWith path "/");
    [|destruct (UrlRewriteFn.contains path ".") eqn:C; [exact C|]];
    rewrite contains_append; apply orb_true_r.
Qed.

Lemma rewritten_short (path : string) :
  (String.length path <= 1)%nat -> UrlRewriteFn.rewritten path = path.
Proof.
  intros L. rewrite rewritten_by_tests.
  now replace (String.length path <=? 1)%nat with true
    by (symmetry; apply Nat.leb_le; exact L).
Qed.

(** X8: the control-based distribution runs the handler of
    [UrlRewriteFn], and nothing else, on every viewer request; the
    identity-based distribution has no function and forwards every
    request as it came, so a path such as [/about] is not rewritten
    there. *)
Theorem viewer_request_stage_by_variant :
  forall (domainName : string) (props : cdk.StackProps) (ctx : Context),
    (exists s,
       ControlBased.construct domainName props ctx emptyStack = Ok tt s /\
       exists d dp,
         distributions s = [(d, dp)] /\
         map fst (cloudFrontFunctions s)
         = map cloudfront.function
               (cloudfront.functionAssociations (cloudfront.defaultBehavior dp)) /\
         forall r, forwardedRequest s dp r
                   = UrlRewriteFn.handler (UrlRewriteFn.mkEvent r)) /\
    (exists s,
       IdentityBased.construct domainName props ctx emptyStack = Ok tt s /\
       exists d dp,
         distributions s = [(d, dp)] /\
         cloudFrontFunctions s = [] /\
         forall r, forwardedRequest s dp r = r).
Proof.
  intros domainName props ctx. split; run_stack;
    exists "Distribution"; eexists; repeat split.
Qed.

(** X9: in the control-based variant every viewer path that starts with
    [/] reaches the origin as an object path that holds a [.]: the
    handler sees to the paths of more than one unit, the default root
    object to the root path. *)
Theorem control_based_origin_path_names_a_document :
  forall (domainName : string) (props : cdk.StackProps) (ctx : Context)
         (path : string) (properties : list (string * string)),
    String.prefix "/" path = true ->
    exists s,
      ControlBased.construct domainName props ctx emptyStack = Ok tt s /\
      exists d dp,
        distributions s = [(d, dp)] /\
        UrlRewriteFn.contains
          (originPath dp
             (UrlRewriteFn.uri
                (forwardedRequest s dp
                   (UrlRewriteFn.mkRequest path properties)))) "." = true.
Proof.
  intros domainName props ctx path ps Hslash. run_stack.
  exists "Distribution". eexists. split; [reflexivity|].
  match goal with
  | |- UrlRewriteFn.contains (originPath ?dp (UrlRewriteFn.uri ?f)) _ = _ =>
      change f with (UrlRewriteFn.handler
                       (UrlRewriteFn.mkEvent (UrlRewriteFn.mkRequest path ps)));
      set (D := dp)
  end.
  rewrite handler_by_rewritten. cbn [UrlRewriteFn.uri UrlRewriteFn.request].
  unfold originPath.
  destruct (Nat.le_gt_cases (String.length path) 1) as [L|L].
  - rewrite (rewritten_short path L).
    apply String.prefix_correct in Hslash.
    destruct path as [|a [|b path]]; simpl in Hslash;
      [discriminate Hslash | | simpl in L; lia].
    injection Hslash as ->. reflexivity.
  - pose proof (rewritten_long_has_dot path L) as Hdot.
    destruct (UrlRewriteFn.rewritten path =? "/") eqn:E; [|exact Hdot].
    apply String.eqb_eq in E. rewrite E in Hdot. discriminate Hdot.
Qed.

(** A request for the directory [/blog/]. *)
Lemma control_based_origin_path_names_a_document_witness :
  String.prefix "/" "/blog/" = true /\
  exists s,
    ControlBased.construct "fowler.dev"
      (exampleProps "123456789012" "us-east-1") (exampleContext "Z1")
      emptyStack = Ok tt s /\
    exists d dp,
      distributions s = [(d, dp)] /\
      UrlRewriteFn.contains
        (originPath dp
           (UrlRewriteFn.uri
              (forwardedRequest s dp (UrlRewriteFn.mkRequest "/blog/" []))))
        "." = true.
Proof.
  split; [reflexivity|].
  apply (control_based_origin_path_names_a_document "fowler.dev"
           (exampleProps "123456789012" "us-east-1") (exampleContext "Z1")
           "/blog/" []).
  reflexivity.
Defined.

(** X10: in both variants the stack has exactly the four outputs
    [BucketName], [DistributionId], [DistributionDomainName] and
    [DeployUserName], and whatever the provider assigns they stand for
    the name of the stack's bucket, the id and the domain name of the
    stack's distribution and the name of the stack's deployment user. *)
Theorem outputs_name_own_resources :
  forall (domainName : string) (props : cdk.StackProps) (ctx : Context),
    (exists s,
       ControlBased.construct domainName props ctx emptyStack = Ok tt s /\
       exists b d u,
         map fst (buckets s) = [b] /\ map fst (distributions s) = [d] /\
         map fst (users s) = [u] /\
         forall rho,
           map (fun o => (fst o, resolve rho (cdk.value (snd o)))) (outputs s)
           = [ ("BucketName", rho b "bucketName");
               ("DistributionId", rho d "distributionId");
               ("DistributionDomainName", rho d "distributionDomainName");
               ("DeployUserName", rho u "userName") ]) /\
    (exists s,
       IdentityBased.construct domainName props ctx emptyStack = Ok tt s /\
       exists b d u,
         map fst (buckets s) = [b] /\ map fst (distributions s) = [d] /\
         map fst (users s) = [u] /\
         forall rho,
           map (fun o => (fst o, resolve rho (cdk.value (snd o)))) (outputs s)
           = [ ("BucketName", rho b "bucketName");
               ("DistributionId", rho d "distributionId");
               ("DistributionDomainName", rho d "distributionDomainName");
               ("DeployUserName", rho u "userName") ]).
Proof.
  intros domainName props ctx. split; run_stack;
    exists "SiteBucket", "Distribution", "GitHubActionsUser";
    repeat (split; [reflexivity|]);
    intros rho; cbn; now rewrite !append_empty_r.
Qed.

(** X11: for the same domain name, environment and lookup context the
    two variants declare the same hosted zone, certificate, alias
    records, deployment user, deployment policy with its attachment and
    outputs, and their distributions serve the same domain names over
    the same certificate with the same root object, protocol policy and
    cache policy. *)
Theorem variants_agree_outside_access_binding :
  forall (domainName : string) (props : cdk.StackProps) (ctx : Context),
    exists s1,
      ControlBased.construct domainName props ctx emptyStack = Ok tt s1 /\
      exists s2,
        IdentityBased.construct domainName props ctx emptyStack = Ok tt s2 /\
        shared s1 = shared s2.
Proof.
  intros domainName props ctx. run_stack. run_stack. reflexivity.
Qed.

(** *** More on the bucket name *)

Lemma replaceAll_round_trip (s : string) (c r : ascii) :
  allChars (fun a => negb (Ascii.eqb a r)) s = true ->
  Js.replaceAll (Js.replaceAll s c r) r c = s.
Proof.
  induction s as [|a s IH]; simpl; [reflexivity|].
  rewrite andb_true_iff. intros [Ha Hs]. rewrite (IH Hs). f_equal.
  apply negb_true_iff in Ha.
  destruct (Ascii.eqb a c) eqn:E.
  - rewrite Ascii.eqb_refl. symmetry. now apply Ascii.eqb_eq.
  - now rewrite Ha.
Qed.

Lemma replaceAll_idempotent (s : string) (c r : ascii) :
  c <> r -> Js.replaceAll (Js.replaceAll s c r) c r = Js.replaceAll s c r.
Proof.
  intros Hcr. induction s as [|a s IH]; simpl; [reflexivity|].
  rewrite IH. f_equal. destruct (Ascii.eqb a c) eqn:E.
  - apply Ascii.eqb_neq in Hcr. rewrite Ascii.eqb_sym in Hcr. now rewrite Hcr.
  - now rewrite E.
Qed.

Lemma append_assoc (a b c : string) : (a ++ b) ++ c = a ++ b ++ c.
Proof. induction a as [|x a IH]; simpl; [|rewrite IH]; reflexivity. Qed.

(** Two strings cut at a separator that neither tail holds are cut at the
    same place. *)
Lemma split_at_last_separator (c : ascii) (s1 s2 a1 a2 : string) :
  allChars (fun a => negb (Ascii.eqb a c)) a1 = true ->
  allChars (fun a => negb (Ascii.eqb a c)) a2 = true ->
  s1 ++ String c a1 = s2 ++ String c a2 ->
  s1 = s2 /\ a1 = a2.
Proof.
  intros H1 H2. revert s2.
  assert (Hno : forall t u a, allChars (fun a => negb (Ascii.eqb a c)) a = true ->
                              a <> t ++ String c u).
  { intros t u a Ha E. rewrite E, allChars_append in Ha. simpl in Ha.
    rewrite Ascii.eqb_refl in Ha. simpl in Ha. now rewrite andb_false_r in Ha. }
  induction s1 as [|x s1 IH]; intros [|y s2] E; simpl in E.
  - injection E as ->. now split.
  - injection E as <- E. exfalso. exact (Hno _ _ _ H1 E).
  - injection E as -> E. exfalso. symmetry in E. exact (Hno _ _ _ H2 E).
  - injection E as -> E. destruct (IH _ E) as [-> ->]. now split.
Qed.

(** X12: for a domain name without hyphen the sanitising step can be
    undone: putting the dots back for the hyphens gives the domain name
    again. *)
Theorem sanitizedDomain_round_trip :
  forall domainName : string,
    hyphenFree domainName = true ->
    Js.replaceAll (ControlBased.sanitizedDomain domainName) "-" "." = domainName.
Proof.
  intros domainName H. unfold ControlBased.sanitizedDomain.
  now apply replaceAll_round_trip.
Qed.

Lemma sanitizedDomain_round_trip_witness :
  hyphenFree "fowler.dev" = true /\
  Js.replaceAll (ControlBased.sanitizedDomain "fowler.dev") "-" "." = "fowler.dev".
Proof.
  split; [reflexivity|].
  apply (sanitizedDomain_round_trip "fowler.dev"). reflexivity.
Defined.

(** X13: among domain names and account identifiers without hyphen, the
    control-based bucket name determines both the domain name and the
    account: two stacks share a bucket name only when they are for the
    same domain in the same account. *)
Theorem bucketName_determines_domain_and_account :
  forall d1 d2 a1 a2 : string,
    hyphenFree d1 = true -> hyphenFree d2 = true ->
    hyphenFree a1 = true -> hyphenFree a2 = true ->
    ControlBased.bucketName d1 a1 = ControlBased.bucketName d2 a2 ->
    d1 = d2 /\ a1 = a2.
Proof.
  intros d1 d2 a1 a2 Hd1 Hd2 Ha1 Ha2 E. unfold ControlBased.bucketName in E.
  assert (R : forall s a, s ++ "-" ++ a ++ "-hugo-site"
                          = (s ++ String "-" a) ++ "-hugo-site")
    by (intros s a; now rewrite append_assoc).
  rewrite !R in E. apply append_cancel_r in E.
  apply (split_at_last_separator "-" _ _ _ _ Ha1 Ha2) in E.
  destruct E as [Es Ea]. split; [|exact Ea].
  rewrite <- (replaceAll_round_trip d1 "." "-" Hd1).
  rewrite <- (replaceAll_round_trip d2 "." "-" Hd2).
  unfold ControlBased.sanitizedDomain in Es. now rewrite Es.
Qed.

Lemma bucketName_determines_domain_and_account_witness :
  hyphenFree "fowler.dev" = true /\ hyphenFree "123456789012" = true /\
  ControlBased.bucketName "fowler.dev" "123456789012"
  = ControlBased.bucketName "fowler.dev" "123456789012" /\
  ("fowler.dev" = "fowler.dev" /\ "123456789012" = "123456789012").
Proof.
  repeat (split; [reflexivity|]).
  apply (bucketName_determines_domain_and_account
           "fowler.dev" "fowler.dev" "123456789012" "123456789012");
    reflexivity.
Defined.

(** X14: sanitising is idempotent, so a domain name and its sanitised
    form get the same control-based bucket name in every account; when
    the domain name holds a dot these are two different domain names
    with one bucket name. *)
Theorem bucketName_collides_with_sanitised_domain :
  forall domainName account : string,
    ControlBased.bucketName (ControlBased.sanitizedDomain domainName) account
    = ControlBased.bucketName domainName account /\
    (UrlRewriteFn.contains domainName "." = true ->
     ControlBased.sanitizedDomain domainName <> domainName).
Proof.
  intros domainName account. split.
  - unfold ControlBased.bucketName, ControlBased.sanitizedDomain.
    now rewrite replaceAll_idempotent by discriminate.
  - intros Hdot E.
    pose proof (replaceAll_removes domainName "." "-") as Hno.
    unfold ControlBased.sanitizedDomain in E. rewrite E in Hno.
    assert (Hc : forall s, allChars (fun a => negb (Ascii.eqb a ".")) s = true ->
                           UrlRewriteFn.contains s "." = false).
    { induction s as [|a s IH]; simpl; [reflexivity|].
      rewrite andb_true_iff. intros [Ha Hs].
      apply negb_true_iff in Ha. now rewrite Ha, (IH Hs). }
    rewrite (Hc _ (Hno ltac:(discriminate))) in Hdot. discriminate Hdot.
Qed.
